(** * tunneller: the HTTP-to-MQ request handler of [cmd_server.go]

    A shallow embedding of [serveCmd.HTTPHandler] and of the library calls it
    makes ([strings.Contains], [strings.Split], [strings.HasPrefix], string
    slicing), followed by the properties of the handler.

    Go strings are byte sequences; they are modelled by [string], whose
    characters are the 256 byte values.  [string(msg.Payload())] is the
    identity on bytes. *)

From Stdlib Require Import String Ascii List ZArith Lia Bool DecimalString.
Import ListNotations.
Open Scope string_scope.

(** ** Library functions used by the handler *)

Module strings.

(** [strings.HasPrefix(s, prefix)]. *)
Fixpoint HasPrefix (s prefix : string) {struct prefix} : bool :=
  match prefix with
  | EmptyString => true
  | String p prefix' =>
    match s with
    | EmptyString => false
    | String c s' => Ascii.eqb c p && HasPrefix s' prefix'
    end
  end.

(** [strings.Contains(s, substr)]: [substr] occurs at some offset of [s]. *)
Fixpoint Contains (s substr : string) : bool :=
  HasPrefix s substr ||
  match s with
  | EmptyString => false
  | String _ s' => Contains s' substr
  end.

(** The scan behind [strings.Split] for a separator that is not empty: the
    leftmost occurrence of [sep] closes the current piece, the scan resumes
    after it ([skip] counts the bytes of the separator still to pass), and
    the rest of the input is the last piece. *)
Fixpoint genSplit (sep : string) (skip : nat) (cur s : string) : list string :=
  match s with
  | EmptyString => [cur]
  | String c s' =>
    match skip with
    | S k => genSplit sep k cur s'
    | O =>
      if HasPrefix s sep
      then cur :: genSplit sep (String.length sep - 1) "" s'
      else genSplit sep 0 (cur ++ String c "") s'
    end
  end.

(** [strings.Split(s, sep)], [sep] not empty. *)
Definition Split (s sep : string) : list string := genSplit sep 0 "" s.

End strings.

(** [s[n:]].  The handler slices only under the [HasPrefix] guard of the
    callback, where [n] is within the length of [s] (lemma
    [sigil_within_length]); Go panics on a larger [n]. *)
Fixpoint slice_from (n : nat) (s : string) : string :=
  match n, s with
  | O, _ => s
  | S n', String _ s' => slice_from n' s'
  | S _, EmptyString => EmptyString
  end.

(** ** Host name, topic and reply prefix *)

(** The prefix by which a client marks its response, ["X-"]. *)
Definition sigil : string := "X-".

(** ["clients/"+host], written out at the publish, the subscribe and the
    unsubscribe. *)
Definition topic (host : string) : string := "clients/" ++ host.

(** Lines 83-87: the name a request is forwarded to.  [None] stands for the
    run-time panic of [hsts[0]] on an empty slice. *)
Definition client_identifier (host : string) : option string :=
  if strings.Contains host "."
  then
    match strings.Split host "." with
    | h :: _ => Some h
    | [] => None
    end
  else Some host.

(** ** The subscription callback, lines 126-129 *)

(** The closure assigns the captured variable [response]; here it maps the
    old value of [response] and the payload to the new value. *)
Definition callback (response : string) (payload : string) : string :=
  let tmp := payload in
  if strings.HasPrefix tmp "X-" then slice_from 2 tmp else response.

(** The test and the slice of the callback as an option-valued function:
    what the callback would assign, if it assigns. *)
Definition decode (message : string) : option string :=
  if strings.HasPrefix message "X-" then Some (slice_from 2 message) else None.

(** The callback run on a batch of messages in their order of arrival. *)
Definition deliver (response : string) (msgs : list string) : string :=
  fold_left callback msgs response.

(** ** The world around one call of the handler *)

(** What [w.(http.Hijacker)] and [hj.Hijack()] give for the response writer
    of the call. *)
Inductive Hijacker :=
| NotHijacker
| HijackError (err : string)
| HijackOk.

(** Everything the handler reads from outside during one call.  Errors are
    carried by their [Error()] text, [None] being [nil].

    The callback runs on the MQ client's goroutine.  The model lets it run
    while the handler is blocked: in [sub_token.Wait()], in each
    [time.Sleep], and in [unsub_token.Wait()]. *)
Record Env := {
  r_Host : string;
  (** result of [httputil.DumpRequest(r, true)]: the dump, or the error *)
  DumpRequest : string + string;
  publish_Error : option string;
  subscribe_Error : option string;
  unsubscribe_Error : option string;
  (** payloads handed to the callback during [sub_token.Wait()] *)
  on_subscribe : list string;
  (** payloads handed to the callback during the sleep entered with
      [count = k] *)
  on_sleep : Z -> list string;
  (** payloads handed to the callback during [unsub_token.Wait()] *)
  on_unsubscribe : list string;
  w_Hijacker : Hijacker
}.

(** What the handler does to the outside, in program order. *)
Inductive Event :=
| Printf (s : string)                       (* fmt.Printf, standard output *)
| Fprintf_w (s : string)                    (* fmt.Fprintf(w, ...) *)
| http_Error (msg : string) (code : Z)      (* http.Error(w, msg, code) *)
| Publish (tpc : string) (qos : Z) (retained : bool) (payload : string)
| Subscribe (tpc : string) (qos : Z)
| Sleep (d : Z)                             (* time.Sleep, nanoseconds *)
| Unsubscribe (tpc : string)
| Hijack
| Fprintf_bufrw (s : string)                (* fmt.Fprintf(bufrw, "%s", s) *)
| Flush
| Close
| Panic.                                    (* run-time panic: index out of range *)

(** The line feed of the format strings. *)
Definition nl : string := String "010" "".

Definition Second : Z := 1000000000.
Definition StatusInternalServerError : Z := 500.

(** ** The wait, lines 144-153 *)

(** [for len(response) == 0 && count < 10 { Printf; Sleep; count++ }].
    Each unit of [fuel] pays for one evaluation of the loop condition;
    [None] means the fuel ran out before the loop was left.  The result is
    [response] and [count] on leaving the loop, and the events of the
    loop. *)
Fixpoint wait_loop (fuel : nat) (arrive : Z -> list string)
    (response : string) (count : Z) : option (string * Z * list Event) :=
  match fuel with
  | O => None
  | S fuel' =>
    if (String.length response =? 0)%nat && (count <? 10)%Z
    then
      match wait_loop fuel' arrive (deliver response (arrive count)) (count + 1) with
      | Some (response', count', evs) =>
        Some (response', count',
              Printf ("Awaiting a reply .." ++ nl)
              :: Sleep (1 * Second) :: evs)
      | None => None
      end
    else Some (response, count, [])
  end.

(** ** The failure response, lines 175-193 *)

(** The raw string literal of line 182, line by line. *)
Definition timeout_document : string :=
  "HTTP/1.0 200 OK" ++ nl ++
  "Content-type: text/html; charset=UTF-8" ++ nl ++
  "Connection: close" ++ nl ++
  nl ++
  "<!DOCTYPE html>" ++ nl ++
  "<html>" ++ nl ++
  "<body>" ++ nl ++
  "<p>We didn't receive a reply from the remote host, despite waiting 10 seconds.</p>" ++ nl ++
  "</body>" ++ nl ++
  "</html>" ++ nl.

(** [if len(response) == 0 { response = `...` }]. *)
Definition final_response (response : string) : string :=
  if (String.length response =? 0)%nat then timeout_document else response.

(** ** Sending the reply, lines 208-226 *)

Definition relay (hj : Hijacker) (response : string) : list Event :=
  match hj with
  | NotHijacker =>
    [ http_Error "Webserver doesn't support hijacking" StatusInternalServerError;
      Printf "Webserver doesn't support hijacking" ]
  | HijackError err =>
    [ Hijack;
      http_Error err StatusInternalServerError;
      Printf ("Error running hijack:" ++ err) ]
  | HijackOk =>
    [ Hijack; Fprintf_bufrw response; Flush; Close ]
  end.

(** ** The handler, lines 74-228 *)

(** The events of one call; [None] when [fuel] does not cover the wait. *)
Definition HTTPHandler (fuel : nat) (e : Env) : option (list Event) :=
  match client_identifier (r_Host e) with
  | None => Some [ Panic ]
  | Some host =>
    let sending := Printf ("Sending request to remote name " ++ host ++ nl) in
    match DumpRequest e with
    | inr err =>
      Some [ sending;
             Fprintf_w ("Error converting the incoming request to plain-text: " ++ err ++ nl);
             Printf ("Error converting the incoming request to plain-text: " ++ err ++ nl) ]
    | inl requestDump =>
      let publish := Publish ("clients/" ++ host) 0 false requestDump in
      let response := "" in
      let subscribe := Subscribe ("clients/" ++ host) 0 in
      let response := deliver response (on_subscribe e) in
      match subscribe_Error e with
      | Some err =>
        Some [ sending; publish; subscribe;
               Printf ("Error subscribing to clients/" ++ host ++ " - " ++ err ++ nl);
               Fprintf_w ("Error subscribing to clients/" ++ host ++ " - " ++ err ++ nl) ]
      | None =>
        match wait_loop fuel (on_sleep e) response 0 with
        | None => None
        | Some (response, count, waiting) =>
          let unsubscribe := Unsubscribe ("clients/" ++ host) in
          let response := deliver response (on_unsubscribe e) in
          let unsub_log :=
            match unsubscribe_Error e with
            | Some err =>
              [ Printf ("Failed to unsubscribe from clients/" ++ host ++ " - " ++ err ++ nl) ]
            | None => []
            end in
          let response := final_response response in
          Some ([ sending; publish; subscribe ] ++ waiting
                ++ [ unsubscribe ] ++ unsub_log
                ++ relay (w_Hijacker e) response)%list
        end
      end
    end
  end.

(** ** Vocabulary of the statements *)

(** A name without a ['.'] in it. *)
Definition no_dot (s : string) : Prop := ~ In "."%char (list_ascii_of_string s).

(** The run of the wait of one call, from the value the callback left in
    [response] during the subscribe. *)
Definition run_wait (fuel : nat) (e : Env) : option (string * Z * list Event) :=
  wait_loop fuel (on_sleep e) (deliver "" (on_subscribe e)) 0.

(** The number of sleeps of the call: [count] on leaving the loop. *)
Definition polls (e : Env) : nat :=
  match run_wait 11 e with
  | Some (_, count, _) => Z.to_nat count
  | None => 0
  end.

(** The value of [response] at the evaluation of the loop condition that
    follows [n] sleeps, the loop having been entered with [response] and
    [count]. *)
Fixpoint observed (arrive : Z -> list string) (response : string) (count : Z)
    (n : nat) : string :=
  match n with
  | O => response
  | S n' => observed arrive (deliver response (arrive count)) (count + 1) n'
  end.

(** The payloads handed to the callback during [n] sleeps, the first of
    them entered with [count]. *)
Fixpoint during_sleeps (arrive : Z -> list string) (count : Z) (n : nat)
    : list string :=
  match n with
  | O => []
  | S n' => (arrive count ++ during_sleeps arrive (count + 1) n')%list
  end.

(** Every payload handed to the callback before the handler examines
    [response] on line 175, in order of arrival. *)
Definition arrived (e : Env) : list string :=
  (on_subscribe e ++ during_sleeps (on_sleep e) 0 (polls e) ++ on_unsubscribe e)%list.

(** The events of [n] turns of the loop body. *)
Fixpoint wait_events (n : nat) : list Event :=
  match n with
  | O => []
  | S n' => Printf ("Awaiting a reply .." ++ nl) :: Sleep (1 * Second) :: wait_events n'
  end.

(** Total time asked of [time.Sleep], in nanoseconds. *)
Fixpoint slept (evs : list Event) : Z :=
  match evs with
  | [] => 0
  | Sleep d :: evs' => d + slept evs'
  | _ :: evs' => slept evs'
  end.

(** Events seen by the caller of the HTTP request: writes through [w], and
    everything done to the connection once it is taken over. *)
Definition to_caller (ev : Event) : bool :=
  match ev with
  | Fprintf_w _ | http_Error _ _ | Hijack | Fprintf_bufrw _ | Flush | Close => true
  | _ => false
  end.


(** The topic of a call to the bus. *)
Definition bus_topic (ev : Event) : option string :=
  match ev with
  | Publish tpc _ _ _ | Subscribe tpc _ | Unsubscribe tpc => Some tpc
  | _ => None
  end.

(** Events past the encoding of the request: the bus, the wait, the
    takeover of the connection. *)
Definition past_encoding (ev : Event) : bool :=
  match ev with
  | Publish _ _ _ _ | Subscribe _ _ | Unsubscribe _ | Sleep _
  | Hijack | Fprintf_bufrw _ | Flush | Close => true
  | _ => false
  end.


Definition with_publish_Error (e : Env) (err : option string) : Env :=
  {| r_Host := r_Host e; DumpRequest := DumpRequest e;
     publish_Error := err; subscribe_Error := subscribe_Error e;
     unsubscribe_Error := unsubscribe_Error e;
     on_subscribe := on_subscribe e; on_sleep := on_sleep e;
     on_unsubscribe := on_unsubscribe e; w_Hijacker := w_Hijacker e |}.

(** The same call with no message arriving at all. *)
Definition silent (e : Env) : Env :=
  {| r_Host := r_Host e; DumpRequest := DumpRequest e;
     publish_Error := publish_Error e; subscribe_Error := subscribe_Error e;
     unsubscribe_Error := unsubscribe_Error e;
     on_subscribe := []; on_sleep := fun _ => [];
     on_unsubscribe := []; w_Hijacker := w_Hijacker e |}.

(** The line logged when the unsubscribe fails, lines 163-166. *)
Definition unsubscribe_warning (host : string) (err : option string) : list Event :=
  match err with
  | Some err =>
    [ Printf ("Failed to unsubscribe from clients/" ++ host ++ " - " ++ err ++ nl) ]
  | None => []
  end.

(** A payload that leaves an empty [response] empty: the bare prefix, or
    anything the callback passes over. *)
Definition bare_or_ignored (m : string) : Prop := m = sigil \/ decode m = None.

(** A call for [foo.tunnel.example.com] on a healthy bus, with the given
    arrivals during the sleeps. *)
Definition sample (arrive : Z -> list string) : Env :=
  {| r_Host := "foo.tunnel.example.com";
     DumpRequest := inl "GET / HTTP/1.1";
     publish_Error := None; subscribe_Error := None; unsubscribe_Error := None;
     on_subscribe := []; on_sleep := arrive; on_unsubscribe := [];
     w_Hijacker := HijackOk |}.

(** Two marked messages during the first sleep. *)
Definition two_replies : Env :=
  sample (fun k => if (k =? 0)%Z then ["X-first"; "X-second"] else []).

(** The scenario of the specification: one reply during the second sleep. *)
Definition one_reply : Env :=
  sample (fun k => if (k =? 1)%Z
                   then ["X-HTTP/1.1 200 OK" ++ String "013" nl ++ String "013" nl ++ "hi"]
                   else []).

(** Only the bare prefix arrives, during the third sleep. *)
Definition bare_reply : Env :=
  sample (fun k => if (k =? 2)%Z then ["X-"] else []).

(** The publish fails, everything else is healthy and nothing arrives. *)
Definition publish_fails : Env :=
  with_publish_Error (sample (fun _ => [])) (Some "not connected").

(** The body of the request cannot be read. *)
Definition unreadable : Env :=
  {| r_Host := "foo.tunnel.example.com";
     DumpRequest := inr "unexpected EOF";
     publish_Error := None; subscribe_Error := None; unsubscribe_Error := None;
     on_subscribe := []; on_sleep := fun _ => []; on_unsubscribe := [];
     w_Hijacker := HijackOk |}.

(** ** Starting the server, lines 231-279 *)

(** The fields of [serveCmd] set from the command line. *)
Record serveCmd := {
  bindHost : string;
  bindPort : Z
}.

(** What [Execute] does to the outside, in program order. *)
Inductive StartEvent :=
| Connect (broker : string)                 (* p.mq.Connect() *)
| Say (s : string)                          (* fmt.Printf *)
| HandleFunc (pattern : string)             (* http.HandleFunc(pattern, p.HTTPHandler) *)
| ListenAndServe (addr : string) (ReadTimeout WriteTimeout : Z).

(** [%d] of an [int]. *)
Definition decimal (n : Z) : string := NilZero.string_of_int (Z.to_int n).

(** [Execute]: the events and the exit status.  [connect_Error] is
    [token.Error()] of the connect, once [token.Wait()] has returned true;
    [listen_Error] is what [srv.ListenAndServe()] returns when the server
    stops. *)
Definition Execute (p : serveCmd) (connect_Error listen_Error : option string)
    : list StartEvent * Z :=
  let connect := Connect "tcp://localhost:1883" in
  match connect_Error with
  | Some err =>
    ([ connect; Say ("Failed to connect to MQ-server: " ++ err ++ nl) ], 1%Z)
  | None =>
    let bind := bindHost p ++ ":" ++ decimal (bindPort p) in
    let launching := Say ("Launching the server on http://" ++ bind ++ nl) in
    let serve := ListenAndServe bind (300 * Second) (300 * Second) in
    match listen_Error with
    | Some err =>
      ([ connect; HandleFunc "/"; launching; serve;
         Say (nl ++ "Error: " ++ err ++ nl) ], 0%Z)
    | None => ([ connect; HandleFunc "/"; launching; serve ], 0%Z)
    end
  end.

(** ** Further vocabulary *)

Definition is_listen (ev : StartEvent) : bool :=
  match ev with ListenAndServe _ _ _ => true | _ => false end.

Definition is_handle (ev : StartEvent) : bool :=
  match ev with HandleFunc _ => true | _ => false end.

(** Calls to the bus. *)
Definition on_bus (ev : Event) : bool :=
  match bus_topic ev with Some _ => true | None => false end.

(** A response handed to the caller: through [w], or on the connection. *)
Definition is_response (ev : Event) : bool :=
  match ev with
  | Fprintf_w _ | http_Error _ _ | Fprintf_bufrw _ => true
  | _ => false
  end.

(** Writes on the connection taken over. *)
Definition on_connection (ev : Event) : bool :=
  match ev with
  | Fprintf_bufrw _ | Flush | Close => true
  | _ => false
  end.


Definition with_on_sleep (e : Env) (arrive : Z -> list string) : Env :=
  {| r_Host := r_Host e; DumpRequest := DumpRequest e;
     publish_Error := publish_Error e; subscribe_Error := subscribe_Error e;
     unsubscribe_Error := unsubscribe_Error e;
     on_subscribe := on_subscribe e; on_sleep := arrive;
     on_unsubscribe := on_unsubscribe e; w_Hijacker := w_Hijacker e |}.


Definition with_subscribe_Error (e : Env) (err : option string) : Env :=
  {| r_Host := r_Host e; DumpRequest := DumpRequest e;
     publish_Error := publish_Error e; subscribe_Error := err;
     unsubscribe_Error := unsubscribe_Error e;
     on_subscribe := on_subscribe e; on_sleep := on_sleep e;
     on_unsubscribe := on_unsubscribe e; w_Hijacker := w_Hijacker e |}.

(** The value of [response] at the evaluation of the loop condition of a
    call that follows [n] sleeps. *)
Definition at_check (e : Env) (n : nat) : string :=
  observed (on_sleep e) (deliver "" (on_subscribe e)) 0 n.

(** The shape of the events of a call, by the path it takes. *)
Definition shape (e : Env) (host : string) : list Event :=
  let sending := Printf ("Sending request to remote name " ++ host ++ nl) in
  match DumpRequest e with
  | inr err =>
    [ sending;
      Fprintf_w ("Error converting the incoming request to plain-text: " ++ err ++ nl);
      Printf ("Error converting the incoming request to plain-text: " ++ err ++ nl) ]
  | inl dump =>
    match subscribe_Error e with
    | Some err =>
      [ sending; Publish (topic host) 0 false dump; Subscribe (topic host) 0;
        Printf ("Error subscribing to clients/" ++ host ++ " - " ++ err ++ nl);
        Fprintf_w ("Error subscribing to clients/" ++ host ++ " - " ++ err ++ nl) ]
    | None =>
      ([ sending; Publish (topic host) 0 false dump; Subscribe (topic host) 0 ]
       ++ wait_events (polls e)
       ++ [ Unsubscribe (topic host) ]
       ++ unsubscribe_warning host (unsubscribe_Error e)
       ++ relay (w_Hijacker e) (final_response (deliver "" (arrived e))))%list
    end
  end.

(** The same call with only the marked messages arriving. *)
Definition marked_only (e : Env) : Env :=
  let marked := fun m => strings.HasPrefix m "X-" in
  {| r_Host := r_Host e; DumpRequest := DumpRequest e;
     publish_Error := publish_Error e; subscribe_Error := subscribe_Error e;
     unsubscribe_Error := unsubscribe_Error e;
     on_subscribe := filter marked (on_subscribe e);
     on_sleep := fun k => filter marked (on_sleep e k);
     on_unsubscribe := filter marked (on_unsubscribe e);
     w_Hijacker := w_Hijacker e |}.

(** The default flags of [SetFlags], lines 62-63. *)
Definition default_flags : serveCmd := {| bindHost := "127.0.0.1"; bindPort := 8080 |}.

(** ** Runs on concrete inputs *)

Example split_3 : strings.Split "foo.tunnel.example.com" "." = ["foo"; "tunnel"; "example"; "com"].
Proof. reflexivity. Qed.
Example split_empty : strings.Split "" "." = [""].
Proof. reflexivity. Qed.
Example split_trailing : strings.Split "a." "." = ["a"; ""].
Proof. reflexivity. Qed.
Example split_long_sep : strings.Split "a--b-c--" "--" = ["a"; "b-c"; ""].
Proof. reflexivity. Qed.
Example client_identifier_foo : client_identifier "foo.tunnel.example.com" = Some "foo".
Proof. reflexivity. Qed.
Example deliver_keeps_last : deliver "" ["GET /"; "X-a"; "X-b"; "zz"] = "b".
Proof. reflexivity. Qed.
Example run_one_reply :
  HTTPHandler 11 one_reply =
  Some [ Printf ("Sending request to remote name foo" ++ nl);
         Publish "clients/foo" 0 false "GET / HTTP/1.1";
         Subscribe "clients/foo" 0;
         Printf ("Awaiting a reply .." ++ nl); Sleep 1000000000;
         Printf ("Awaiting a reply .." ++ nl); Sleep 1000000000;
         Unsubscribe "clients/foo";
         Hijack;
         Fprintf_bufrw ("HTTP/1.1 200 OK" ++ String "013" nl ++ String "013" nl ++ "hi");
         Flush; Close ].
Proof. reflexivity. Qed.
Example run_unreadable :
  HTTPHandler 0 unreadable =
  Some [ Printf ("Sending request to remote name foo" ++ nl);
         Fprintf_w ("Error converting the incoming request to plain-text: unexpected EOF" ++ nl);
         Printf ("Error converting the incoming request to plain-text: unexpected EOF" ++ nl) ].
Proof. reflexivity. Qed.
Example polls_silent : polls (sample (fun _ => [])) = 10.
Proof. reflexivity. Qed.
Example polls_bare : polls bare_reply = 10.
Proof. reflexivity. Qed.
Example arrived_two : arrived two_replies = ["X-first"; "X-second"].
Proof. reflexivity. Qed.

(** ** Strings *)

Section StringFacts.

Local Open Scope nat_scope.

Lemma append_empty_r (s : string) : s ++ "" = s.
Proof. induction s as [|c s IH]; simpl; [reflexivity | now rewrite IH]. Qed.

Lemma append_assoc (a b c : string) : (a ++ b) ++ c = a ++ b ++ c.
Proof. induction a as [|x a IH]; simpl; [reflexivity | now rewrite IH]. Qed.

Lemma append_inj_l (p a b : string) : p ++ a = p ++ b -> a = b.
Proof.
  induction p as [|x p IH]; simpl; intros H.
  - exact H.
  - injection H as H. now apply IH.
Qed.

Lemma HasPrefix_app (p rest : string) : strings.HasPrefix (p ++ rest) p = true.
Proof.
  induction p as [|x p IH]; simpl.
  - reflexivity.
  - now rewrite Ascii.eqb_refl, IH.
Qed.

Lemma HasPrefix_inv (p s : string) :
  strings.HasPrefix s p = true -> exists rest, s = p ++ rest.
Proof.
  revert s. induction p as [|x p IH]; intros s H.
  - now exists s.
  - destruct s as [|c s]; simpl in H; [discriminate|].
    apply andb_true_iff in H. destruct H as [Hc Hs].
    apply Ascii.eqb_eq in Hc. subst c.
    destruct (IH _ Hs) as [rest ->]. now exists rest.
Qed.

Lemma HasPrefix_false (p s : string) :
  (forall rest, s <> p ++ rest) -> strings.HasPrefix s p = false.
Proof.
  intros H. destruct (strings.HasPrefix s p) eqn:E; [|reflexivity].
  destruct (HasPrefix_inv _ _ E) as [rest ->]. now destruct (H rest).
Qed.

Lemma slice_from_app (p rest : string) : slice_from (String.length p) (p ++ rest) = rest.
Proof.
  induction p as [|x p IH]; simpl.
  - reflexivity.
  - exact IH.
Qed.

(** The slice of the callback is in range whenever its guard holds. *)
Lemma sigil_within_length (tmp : string) :
  strings.HasPrefix tmp "X-" = true -> 2 <= String.length tmp.
Proof.
  intros H. destruct (HasPrefix_inv _ _ H) as [rest ->]. simpl. lia.
Qed.

Lemma length_zero_empty (s : string) : (String.length s =? 0) = true <-> s = "".
Proof.
  destruct s; simpl; split; intros H; try reflexivity; discriminate.
Qed.

End StringFacts.

(** ** The callback *)

Lemma decode_sigil (bytes : string) : decode (sigil ++ bytes) = Some bytes.
Proof.
  unfold decode. change "X-" with sigil.
  rewrite HasPrefix_app. f_equal.
Qed.

Lemma decode_unmarked (message : string) :
  (forall rest, message <> sigil ++ rest) -> decode message = None.
Proof.
  intros H. unfold decode. change "X-" with sigil.
  now rewrite (HasPrefix_false _ _ H).
Qed.

(** The callback assigns exactly what [decode] yields. *)
Lemma callback_decode (response payload : string) :
  callback response payload =
  match decode payload with Some reply => reply | None => response end.
Proof. unfold callback, decode. now destruct (strings.HasPrefix payload "X-"). Qed.

Lemma deliver_app (response : string) (xs ys : list string) :
  deliver response (xs ++ ys) = deliver (deliver response xs) ys.
Proof. apply fold_left_app. Qed.

Lemma deliver_cons (response m : string) (msgs : list string) :
  deliver response (m :: msgs) = deliver (callback response m) msgs.
Proof. reflexivity. Qed.

Lemma deliver_ignored (response : string) (msgs : list string) :
  Forall (fun m => decode m = None) msgs -> deliver response msgs = response.
Proof.
  intros H. revert response.
  induction H as [|m msgs Hm _ IH]; intros response; simpl.
  - reflexivity.
  - rewrite callback_decode, Hm. apply IH.
Qed.

(** The callback keeps the last marked payload of a batch. *)
Lemma deliver_last_marked (response : string) (before after : list string)
    (payload : string) :
  Forall (fun m => decode m = None) after ->
  deliver response (before ++ (sigil ++ payload) :: after) = payload.
Proof.
  intros H. rewrite deliver_app, deliver_cons.
  rewrite callback_decode, decode_sigil. now apply deliver_ignored.
Qed.

Lemma deliver_bare (msgs : list string) :
  Forall bare_or_ignored msgs -> deliver "" msgs = "".
Proof.
  unfold deliver. induction 1 as [|m msgs Hm _ IH]; simpl.
  - reflexivity.
  - rewrite callback_decode. destruct Hm as [-> | ->]; exact IH.
Qed.

(** C4: the test and slice of the callback strip the prefix ["X-"] and
    nothing else: on the prefix followed by [bytes] they yield [bytes], which
    the callback records whatever [response] held; on a message that does
    not start with the prefix they yield nothing, and the callback leaves
    [response] as it was. *)
Theorem decode_round_trip (bytes message response : string) :
  decode (sigil ++ bytes) = Some bytes /\
  callback response (sigil ++ bytes) = bytes /\
  ((forall rest, message <> sigil ++ rest) ->
   decode message = None /\ callback response message = response).
Proof.
  split; [apply decode_sigil|]. split.
  - now rewrite callback_decode, decode_sigil.
  - intros H. split; [now apply decode_unmarked|].
    now rewrite callback_decode, decode_unmarked.
Qed.

Lemma decode_round_trip_witness :
  (forall rest, "GET / HTTP/1.1" <> sigil ++ rest) /\
  decode "GET / HTTP/1.1" = None /\
  callback "kept" "GET / HTTP/1.1" = "kept".
Proof.
  assert (H : forall rest, "GET / HTTP/1.1" <> sigil ++ rest)
    by (intros rest; simpl; discriminate).
  split; [exact H|].
  exact (proj2 (proj2 (decode_round_trip "" "GET / HTTP/1.1" "kept")) H).
Defined.

(** ** The topic *)

(** Go through the events of a run, keeping those on the bus. *)
Ltac each_event Hin Hbus :=
  repeat match type of Hin with
  | In _ (_ :: _) =>
    destruct Hin as [Hin | Hin];
    [ subst; cbn [bus_topic] in Hbus;
      try discriminate; try (now injection Hbus as <-) | ]
  | In _ (_ ++ _)%list => apply in_app_or in Hin; destruct Hin as [Hin | Hin]
  | In _ [] => contradiction
  | In _ (relay ?hj _) => destruct hj; cbn [relay] in Hin
  | In _ (match ?err with Some _ => _ | None => _ end) => destruct err
  end.

Lemma wait_loop_off_bus (arrive : Z -> list string) (fuel : nat) :
  forall response count response' count' evs,
    wait_loop fuel arrive response count = Some (response', count', evs) ->
    Forall (fun ev => bus_topic ev = None) evs.
Proof.
  induction fuel as [|fuel IH]; intros response count response' count' evs Hrun;
    [discriminate|].
  cbn [wait_loop] in Hrun.
  destruct ((String.length response =? 0)%nat && (count <? 10)%Z).
  - destruct (wait_loop fuel arrive (deliver response (arrive count)) (count + 1))
      as [[[r c] inner]|] eqn:Hinner; [|discriminate].
    injection Hrun as _ _ <-.
    repeat (constructor; [reflexivity|]). now apply (IH _ _ _ _ _ Hinner).
  - injection Hrun as _ _ <-. constructor.
Qed.

(** C9: the topic of a client is ["clients/"] followed by its identifier;
    equal identifiers give equal topics and distinct identifiers give
    distinct topics; and every publish, subscribe and unsubscribe of a call
    is on the topic of the identifier drawn from the host name of the
    request. *)
Theorem topic_injective (id1 id2 : string) (fuel : nat) (e : Env)
    (tr : list Event) (ev : Event) (tpc : string) :
  topic id1 = "clients/" ++ id1 /\
  (id1 = id2 -> topic id1 = topic id2) /\
  (id1 <> id2 -> topic id1 <> topic id2) /\
  (HTTPHandler fuel e = Some tr -> In ev tr -> bus_topic ev = Some tpc ->
   exists host, client_identifier (r_Host e) = Some host /\ tpc = topic host).
Proof.
  split; [reflexivity|]. split; [now intros ->|]. split.
  - intros Hne Heq. apply Hne. unfold topic in Heq.
    now apply append_inj_l in Heq.
  - unfold HTTPHandler.
    destruct (client_identifier (r_Host e)) as [host|];
      [|intros [= <-] [<- | []]; discriminate].
    intros Hrun Hin Hbus. exists host. split; [reflexivity|].
    destruct (DumpRequest e) as [dump | err].
    2:{ injection Hrun as <-. each_event Hin Hbus. }
    destruct (subscribe_Error e) as [err|].
    1:{ injection Hrun as <-. each_event Hin Hbus. }
    destruct (wait_loop fuel (on_sleep e) (deliver "" (on_subscribe e)) 0)
      as [[[response count] waiting]|] eqn:Hwait; [|discriminate].
    apply wait_loop_off_bus in Hwait. rewrite Forall_forall in Hwait.
    injection Hrun as <-.
    each_event Hin Hbus.
    rewrite (Hwait _ Hin) in Hbus. discriminate.
Qed.

Lemma topic_injective_witness :
  ("foo" <> "bar" /\
   HTTPHandler 11 (sample (fun _ => []))
   = Some ([ Printf ("Sending request to remote name foo" ++ nl);
             Publish "clients/foo" 0 false "GET / HTTP/1.1";
             Subscribe "clients/foo" 0 ]
           ++ wait_events 10
           ++ [ Unsubscribe "clients/foo";
                Hijack; Fprintf_bufrw timeout_document; Flush; Close ])%list /\
   bus_topic (Subscribe "clients/foo" 0) = Some "clients/foo") /\
  topic "foo" <> topic "bar" /\
  exists host,
    client_identifier (r_Host (sample (fun _ => []))) = Some host /\ "clients/foo" = topic host.
Proof.
  assert (Hne : "foo" <> "bar") by discriminate.
  split; [repeat split; exact Hne|].
  destruct (topic_injective "foo" "bar" 11 (sample (fun _ => []))
              ([ Printf ("Sending request to remote name foo" ++ nl);
                 Publish "clients/foo" 0 false "GET / HTTP/1.1";
                 Subscribe "clients/foo" 0 ]
               ++ wait_events 10
               ++ [ Unsubscribe "clients/foo";
                    Hijack; Fprintf_bufrw timeout_document; Flush; Close ])%list
              (Subscribe "clients/foo" 0) "clients/foo") as (_ & _ & Hdistinct & Hbus).
  split; [exact (Hdistinct Hne)|].
  apply Hbus; [reflexivity | right; right; left; reflexivity | reflexivity].
Defined.

(** ** The client identifier *)

Lemma no_dot_empty : no_dot "".
Proof. intros []. Qed.

Lemma no_dot_String (c : ascii) (s : string) :
  no_dot (String c s) <-> c <> "."%char /\ no_dot s.
Proof.
  unfold no_dot. simpl. split.
  - intros H. split; intros H'; apply H; [now left | now right].
  - intros [Hc Hs] [H | H]; [now apply Hc | now apply Hs].
Qed.

(** A host name either has no ['.'] or splits at its first ['.'] . *)
Lemma first_dot (host : string) :
  no_dot host \/ exists label rest, host = label ++ "." ++ rest /\ no_dot label.
Proof.
  induction host as [|c host IH].
  - left. apply no_dot_empty.
  - destruct (Ascii.eqb_spec c ".") as [-> | Hc].
    + right. exists "", host. split; [reflexivity | apply no_dot_empty].
    + destruct IH as [IH | (label & rest & -> & Hl)].
      * left. now apply no_dot_String.
      * right. exists (String c label), rest. split; [reflexivity|].
        now apply no_dot_String.
Qed.

Lemma Contains_no_dot (s : string) : no_dot s -> strings.Contains s "." = false.
Proof.
  induction s as [|c s IH]; intros H.
  - reflexivity.
  - apply no_dot_String in H. destruct H as [Hc Hs].
    simpl. rewrite (IH Hs).
    destruct (Ascii.eqb_spec c "."); [contradiction | reflexivity].
Qed.

Lemma Contains_at_dot (label rest : string) :
  strings.Contains (label ++ "." ++ rest) "." = true.
Proof.
  induction label as [|c label IH].
  - reflexivity.
  - change (String c label ++ "." ++ rest) with (String c (label ++ "." ++ rest)).
    cbn [strings.Contains]. rewrite IH. apply orb_true_r.
Qed.

(** On a name that splits at its first ['.'], the first piece of [Split] is
    what precedes that ['.'] . *)
Lemma genSplit_first_dot (label rest cur : string) :
  no_dot label ->
  strings.genSplit "." 0 cur (label ++ "." ++ rest)
  = (cur ++ label) :: strings.genSplit "." 0 "" rest.
Proof.
  revert cur. induction label as [|c label IH]; intros cur H.
  - simpl. now rewrite append_empty_r.
  - apply no_dot_String in H. destruct H as [Hc Hl].
    change (String c label ++ "." ++ rest) with (String c (label ++ "." ++ rest)).
    cbn [strings.genSplit strings.HasPrefix].
    destruct (Ascii.eqb_spec c "."); [contradiction|].
    cbn [andb]. rewrite (IH _ Hl). now rewrite append_assoc.
Qed.

Lemma client_identifier_label (label rest : string) :
  no_dot label -> client_identifier (label ++ "." ++ rest) = Some label.
Proof.
  intros H. unfold client_identifier, strings.Split.
  now rewrite Contains_at_dot, (genSplit_first_dot _ _ "" H).
Qed.

Lemma client_identifier_bare (host : string) :
  no_dot host -> client_identifier host = Some host.
Proof.
  intros H. unfold client_identifier. now rewrite (Contains_no_dot _ H).
Qed.

(** [hsts[0]] never panics: every host name has an identifier. *)
Lemma client_identifier_total (host : string) :
  exists id, client_identifier host = Some id.
Proof.
  destruct (first_dot host) as [H | (label & rest & -> & H)].
  - exists host. now apply client_identifier_bare.
  - exists label. now apply client_identifier_label.
Qed.

(** C7: every host name has a client identifier: the host name itself when
    it holds no ['.'], and otherwise what precedes its first ['.'] (the host
    name is the identifier, a ['.'], and a rest, and the identifier holds no
    ['.']). *)
Theorem client_identifier_first_label (host : string) :
  exists id,
    client_identifier host = Some id /\
    ((no_dot host /\ id = host) \/
     (exists rest, host = id ++ "." ++ rest /\ no_dot id)).
Proof.
  destruct (first_dot host) as [H | (label & rest & -> & H)].
  - exists host. split; [now apply client_identifier_bare | now left].
  - exists label. split; [now apply client_identifier_label|].
    right. now exists rest.
Qed.

Example client_identifier_bar : client_identifier "bar" = Some "bar".
Proof. reflexivity. Qed.
Example client_identifier_port : client_identifier "foo.example.com:8080" = Some "foo".
Proof. reflexivity. Qed.
Example client_identifier_leading_dot : client_identifier ".example.com" = Some "".
Proof. reflexivity. Qed.

(** ** The wait *)

Lemma observed_during (arrive : Z -> list string) (n : nat) :
  forall response count,
    observed arrive response count n
    = deliver response (during_sleeps arrive count n).
Proof.
  induction n as [|n IH]; intros response count; simpl.
  - reflexivity.
  - now rewrite IH, deliver_app.
Qed.

Lemma slept_wait_events (n : nat) :
  slept (wait_events n) = (Z.of_nat n * Second)%Z.
Proof.
  induction n as [|n IH].
  - reflexivity.
  - cbn [wait_events slept]. rewrite IH. lia.
Qed.

(** With fuel for the evaluations of the condition that are left, the loop
    is left after some number [n] of sleeps: [response] was empty at every
    evaluation before the last, and is not empty at the last unless [count]
    reached 10. *)
Lemma wait_loop_spec (arrive : Z -> list string) (fuel : nat) :
  forall response count,
    (Z.to_nat (10 - count) < fuel)%nat ->
    exists n,
      wait_loop fuel arrive response count
      = Some (observed arrive response count n, (count + Z.of_nat n)%Z, wait_events n) /\
      (n <= Z.to_nat (10 - count))%nat /\
      (forall j, (j < n)%nat -> observed arrive response count j = "") /\
      ((n < Z.to_nat (10 - count))%nat -> observed arrive response count n <> "").
Proof.
  induction fuel as [|fuel IH]; intros response count Hfuel; [lia|].
  cbn [wait_loop].
  destruct (String.length response =? 0)%nat eqn:Hlen;
    [destruct (count <? 10)%Z eqn:Hcount|]; cbn [andb].
  - apply Z.ltb_lt in Hcount. apply length_zero_empty in Hlen.
    destruct (IH (deliver response (arrive count)) (count + 1)%Z) as (n & Hrun & Hle & Hempty & Hlast);
      [lia|].
    exists (S n). rewrite Hrun. repeat split.
    + cbn [observed wait_events]. do 3 f_equal. lia.
    + lia.
    + intros [|j] Hj; [exact Hlen|]. apply Hempty. lia.
    + intros Hn. apply Hlast. lia.
  - apply Z.ltb_ge in Hcount.
    exists 0%nat. cbn [observed wait_events]. rewrite Z.add_0_r.
    repeat split; try lia.
  - exists 0%nat. cbn [observed wait_events]. rewrite Z.add_0_r.
    repeat split; try lia.
    intros _ Hempty. apply length_zero_empty in Hempty. congruence.
Qed.

(** More fuel does not change a finished wait. *)
Lemma wait_loop_more_fuel (arrive : Z -> list string) (fuel : nat) :
  forall fuel' response count result,
    (fuel <= fuel')%nat ->
    wait_loop fuel arrive response count = Some result ->
    wait_loop fuel' arrive response count = Some result.
Proof.
  induction fuel as [|fuel IH]; intros fuel' response count result Hle Hrun;
    [discriminate|].
  destruct fuel' as [|fuel']; [lia|].
  cbn [wait_loop] in *.
  destruct ((String.length response =? 0)%nat && (count <? 10)%Z); [|exact Hrun].
  destruct (wait_loop fuel arrive (deliver response (arrive count)) (count + 1))
    as [inner|] eqn:Hinner; [|discriminate].
  rewrite (IH fuel' _ _ inner); [exact Hrun | lia | exact Hinner].
Qed.

Lemma run_wait_polls (fuel : nat) (e : Env) :
  (11 <= fuel)%nat ->
  run_wait fuel e
  = Some (observed (on_sleep e) (deliver "" (on_subscribe e)) 0 (polls e),
          Z.of_nat (polls e), wait_events (polls e)) /\
  (polls e <= 10)%nat /\
  (forall j, (j < polls e)%nat ->
     observed (on_sleep e) (deliver "" (on_subscribe e)) 0 j = "") /\
  ((polls e < 10)%nat ->
     observed (on_sleep e) (deliver "" (on_subscribe e)) 0 (polls e) <> "").
Proof.
  intros Hfuel.
  destruct (wait_loop_spec (on_sleep e) 11 (deliver "" (on_subscribe e)) 0)
    as (n & Hrun & Hle & Hempty & Hlast); [simpl; lia|].
  assert (Hpolls : polls e = n).
  { unfold polls, run_wait. rewrite Hrun. simpl. lia. }
  rewrite Hpolls. change (Z.to_nat (10 - 0)) with 10%nat in *.
  repeat split; try assumption.
  unfold run_wait.
  now apply (wait_loop_more_fuel _ 11 fuel); [lia|].
Qed.

(** C5: the wait of every call ends, after [polls e] sleeps of one second
    each and at most 10 of them, so within the 10 seconds of the budget.  At
    every evaluation of the loop condition before the last [response] was
    empty, and the loop is left before the tenth sleep only on a [response]
    that is not empty; a wait that ends on an empty [response] has slept the
    whole budget. *)
Theorem wait_terminates (fuel : nat) (e : Env) :
  (11 <= fuel)%nat ->
  let at_check := observed (on_sleep e) (deliver "" (on_subscribe e)) 0 in
  run_wait fuel e = Some (at_check (polls e), Z.of_nat (polls e), wait_events (polls e)) /\
  (polls e <= 10)%nat /\
  (forall j, (j < polls e)%nat -> at_check j = "") /\
  ((polls e < 10)%nat -> at_check (polls e) <> "") /\
  slept (wait_events (polls e)) = (Z.of_nat (polls e) * (1 * Second))%Z /\
  (slept (wait_events (polls e)) <= 10 * Second)%Z /\
  (at_check (polls e) = "" -> slept (wait_events (polls e)) = (10 * Second)%Z).
Proof.
  intros Hfuel at_check.
  destruct (run_wait_polls fuel e Hfuel) as (Hrun & Hle & Hempty & Hlast).
  repeat split; try assumption.
  - rewrite slept_wait_events. lia.
  - rewrite slept_wait_events. unfold Second. lia.
  - intros Hnone. rewrite slept_wait_events.
    assert (polls e = 10)%nat as ->; [|reflexivity].
    destruct (Nat.eq_dec (polls e) 10) as [|Hne]; [assumption|].
    exfalso. apply Hlast; [lia | exact Hnone].
Qed.

Lemma wait_terminates_witness :
  (11 <= 11)%nat /\
  run_wait 11 one_reply
  = Some ("HTTP/1.1 200 OK" ++ String "013" nl ++ String "013" nl ++ "hi", 2%Z, wait_events 2) /\
  polls one_reply = 2%nat.
Proof.
  split; [lia|].
  split; [|reflexivity].
  exact (proj1 (wait_terminates 11 one_reply (le_n 11))).
Defined.

(** ** The handler *)

Lemma filter_wait_events (keep : Event -> bool) (n : nat) :
  keep (Printf ("Awaiting a reply .." ++ nl)) = false ->
  keep (Sleep (1 * Second)) = false ->
  filter keep (wait_events n) = [].
Proof.
  intros Hp Hs. induction n as [|n IH]; [reflexivity|].
  cbn [wait_events filter]. now rewrite Hp, Hs.
Qed.

Lemma filter_unsubscribe_warning (keep : Event -> bool) host err :
  (forall s, keep (Printf s) = false) ->
  filter keep (unsubscribe_warning host err) = [].
Proof.
  intros H. destruct err as [err|]; [|reflexivity].
  cbn [unsubscribe_warning filter]. now rewrite H.
Qed.

Lemma deliver_arrived (e : Env) :
  deliver "" (arrived e)
  = deliver (observed (on_sleep e) (deliver "" (on_subscribe e)) 0 (polls e))
      (on_unsubscribe e).
Proof.
  unfold arrived. now rewrite !deliver_app, observed_during.
Qed.

(** The events of a call whose request was dumped and whose subscribe
    succeeded. *)
Lemma HTTPHandler_waited (fuel : nat) (e : Env) (dump : string) :
  (11 <= fuel)%nat ->
  DumpRequest e = inl dump ->
  subscribe_Error e = None ->
  exists host,
    client_identifier (r_Host e) = Some host /\
    HTTPHandler fuel e
    = Some ([ Printf ("Sending request to remote name " ++ host ++ nl);
              Publish (topic host) 0 false dump;
              Subscribe (topic host) 0 ]
            ++ wait_events (polls e)
            ++ [ Unsubscribe (topic host) ]
            ++ unsubscribe_warning host (unsubscribe_Error e)
            ++ relay (w_Hijacker e) (final_response (deliver "" (arrived e))))%list.
Proof.
  intros Hfuel Hdump Hsub.
  destruct (client_identifier_total (r_Host e)) as [host Hhost].
  exists host. split; [exact Hhost|].
  unfold HTTPHandler. rewrite Hhost, Hdump, Hsub.
  destruct (run_wait_polls fuel e Hfuel) as (Hrun & _).
  unfold run_wait in Hrun. rewrite Hrun, deliver_arrived.
  reflexivity.
Qed.

(** What the caller sees of such a call is the relay alone. *)
Lemma HTTPHandler_caller_view (fuel : nat) (e : Env) (dump : string) :
  (11 <= fuel)%nat ->
  DumpRequest e = inl dump ->
  subscribe_Error e = None ->
  exists tr,
    HTTPHandler fuel e = Some tr /\
    slept tr = (Z.of_nat (polls e) * Second)%Z /\
    filter to_caller tr
    = filter to_caller (relay (w_Hijacker e) (final_response (deliver "" (arrived e)))).
Proof.
  intros Hfuel Hdump Hsub.
  destruct (HTTPHandler_waited fuel e dump Hfuel Hdump Hsub) as (host & _ & Hrun).
  eexists. split; [exact Hrun|]. split.
  - cbn [app slept].
    assert (Happ : forall xs ys, slept (xs ++ ys) = (slept xs + slept ys)%Z).
    { induction xs as [|[] xs IH]; intros ys; cbn [app slept]; rewrite ?IH; lia. }
    rewrite Happ, slept_wait_events. cbn [app slept]. rewrite Happ.
    assert (slept (unsubscribe_warning host (unsubscribe_Error e)) = 0%Z) as ->
      by (now destruct (unsubscribe_Error e)).
    assert (forall hj r, slept (relay hj r) = 0%Z) as -> by (now intros []).
    lia.
  - rewrite !filter_app.
    rewrite (filter_wait_events to_caller), (filter_unsubscribe_warning to_caller);
      reflexivity.
Qed.

(** The publish error is never read. *)
Lemma HTTPHandler_publish_Error (fuel : nat) (e : Env) (err : option string) :
  HTTPHandler fuel (with_publish_Error e err) = HTTPHandler fuel e.
Proof. reflexivity. Qed.

(** ** Which reply is recorded *)

(** C1, as stated, fails: with two marked messages arriving during the first
    sleep, [response] holds the payload of the second when the handler
    examines it, and the second is what is written to the connection. *)
Lemma first_reply_replaced :
  ~ (forall before payload after,
       arrived two_replies = (before ++ (sigil ++ payload)%string :: after)%list ->
       Forall (fun m => decode m = None) before ->
       deliver "" (arrived two_replies) = payload) /\
  HTTPHandler 11 two_replies
  = Some [ Printf ("Sending request to remote name foo" ++ nl);
           Publish "clients/foo" 0 false "GET / HTTP/1.1";
           Subscribe "clients/foo" 0;
           Printf ("Awaiting a reply .." ++ nl); Sleep 1000000000;
           Unsubscribe "clients/foo";
           Hijack; Fprintf_bufrw "second"; Flush; Close ].
Proof.
  split; [|reflexivity].
  intros H.
  specialize (H [] "first" [sigil ++ "second"] eq_refl (Forall_nil _)).
  discriminate H.
Qed.

(** C1, amended: [response], when the handler examines it, holds the payload
    of the last marked message handed to the callback until then, without
    the prefix and otherwise byte for byte, each marked message replacing
    the one before; when that payload is not empty and the connection is
    taken over, it is all that is written to the caller. *)
Theorem last_reply_recorded (fuel : nat) (e : Env) (dump : string)
    (before after : list string) (payload : string) :
  (11 <= fuel)%nat ->
  DumpRequest e = inl dump ->
  subscribe_Error e = None ->
  arrived e = (before ++ (sigil ++ payload)%string :: after)%list ->
  Forall (fun m => decode m = None) after ->
  deliver "" (arrived e) = payload /\
  (payload <> "" -> w_Hijacker e = HijackOk ->
   exists tr,
     HTTPHandler fuel e = Some tr /\
     filter to_caller tr = [ Hijack; Fprintf_bufrw payload; Flush; Close ]).
Proof.
  intros Hfuel Hdump Hsub Harrived Hafter.
  assert (Hslot : deliver "" (arrived e) = payload)
    by (rewrite Harrived; now apply deliver_last_marked).
  split; [exact Hslot|].
  intros Hpayload Hhj.
  destruct (HTTPHandler_caller_view fuel e dump Hfuel Hdump Hsub) as (tr & Hrun & _ & Hview).
  exists tr. split; [exact Hrun|].
  rewrite Hview, Hhj, Hslot. unfold final_response.
  destruct (String.length payload =? 0)%nat eqn:Hlen; [|reflexivity].
  apply length_zero_empty in Hlen. contradiction.
Qed.

Lemma last_reply_recorded_witness :
  ((11 <= 11)%nat /\
   DumpRequest two_replies = inl "GET / HTTP/1.1" /\
   subscribe_Error two_replies = None /\
   arrived two_replies = ([(sigil ++ "first")%string] ++ (sigil ++ "second")%string :: [])%list /\
   Forall (fun m => decode m = None) [] /\
   "second" <> "" /\
   w_Hijacker two_replies = HijackOk) /\
  deliver "" (arrived two_replies) = "second" /\
  exists tr,
    HTTPHandler 11 two_replies = Some tr /\
    filter to_caller tr = [ Hijack; Fprintf_bufrw "second"; Flush; Close ].
Proof.
  assert (Hne : "second" <> "") by discriminate.
  split; [repeat split; try reflexivity; try lia; [constructor | exact Hne]|].
  destruct (last_reply_recorded 11 two_replies "GET / HTTP/1.1"
              [sigil ++ "first"] [] "second"
              (le_n 11) eq_refl eq_refl eq_refl (Forall_nil _)) as [Hslot Hwritten].
  split; [exact Hslot|].
  exact (Hwritten Hne eq_refl).
Defined.

(** ** A failed publish *)

(** C2 at a failing input: the publish fails, and the handler subscribes all
    the same, waits out the ten sleeps and sends the failure response; no
    error is written to the caller. *)
Theorem publish_failure_ignored :
  publish_Error publish_fails = Some "not connected" /\
  HTTPHandler 11 publish_fails
  = Some ([ Printf ("Sending request to remote name foo" ++ nl);
            Publish "clients/foo" 0 false "GET / HTTP/1.1";
            Subscribe "clients/foo" 0 ]
          ++ wait_events 10
          ++ [ Unsubscribe "clients/foo";
               Hijack; Fprintf_bufrw timeout_document; Flush; Close ])%list /\
  HTTPHandler 11 publish_fails = HTTPHandler 11 (with_publish_Error publish_fails None).
Proof. repeat split. Qed.

(** ** The failure response *)



(** ** The unsubscribe *)



(** ** A request that cannot be dumped *)

(** C8: when [DumpRequest] fails, the handler logs, writes the error through
    [w] and returns: nothing is published, no subscription is made, there is
    no wait and the connection is not taken over.  No fuel is needed. *)
Theorem encode_failure_short_circuits (fuel : nat) (e : Env) (err : string) :
  DumpRequest e = inr err ->
  exists host tr,
    client_identifier (r_Host e) = Some host /\
    HTTPHandler fuel e = Some tr /\
    tr = [ Printf ("Sending request to remote name " ++ host ++ nl);
           Fprintf_w ("Error converting the incoming request to plain-text: " ++ err ++ nl);
           Printf ("Error converting the incoming request to plain-text: " ++ err ++ nl) ] /\
    filter past_encoding tr = [] /\
    filter to_caller tr
    = [ Fprintf_w ("Error converting the incoming request to plain-text: " ++ err ++ nl) ].
Proof.
  intros Hdump.
  destruct (client_identifier_total (r_Host e)) as [host Hhost].
  exists host. eexists. split; [exact Hhost|].
  unfold HTTPHandler. rewrite Hhost, Hdump.
  repeat split.
Qed.

Lemma encode_failure_short_circuits_witness :
  DumpRequest unreadable = inr "unexpected EOF" /\
  exists host tr,
    client_identifier (r_Host unreadable) = Some host /\
    HTTPHandler 0 unreadable = Some tr /\
    filter past_encoding tr = [].
Proof.
  split; [reflexivity|].
  destruct (encode_failure_short_circuits 0 unreadable "unexpected EOF" eq_refl)
    as (host & tr & Hhost & Hrun & _ & Hnone & _).
  exists host, tr. repeat split; assumption.
Defined.

(** ** The bare prefix *)

Lemma during_sleeps_bare (arrive : Z -> list string) (n : nat) :
  (forall k, Forall bare_or_ignored (arrive k)) ->
  forall count, Forall bare_or_ignored (during_sleeps arrive count n).
Proof.
  intros H. induction n as [|n IH]; intros count; cbn [during_sleeps].
  - constructor.
  - apply Forall_app. split; [apply H | apply IH].
Qed.

Lemma wait_loop_bare (arrive : Z -> list string) (fuel : nat) :
  (forall k, Forall bare_or_ignored (arrive k)) ->
  forall count,
    wait_loop fuel arrive "" count = wait_loop fuel (fun _ => []) "" count.
Proof.
  intros H. induction fuel as [|fuel IH]; intros count; [reflexivity|].
  cbn [wait_loop]. rewrite (deliver_bare _ (H count)).
  cbn [deliver fold_left]. now rewrite IH.
Qed.

(** C10: when every message that arrives is the bare prefix (or is passed
    over by the callback), the call is the call in which nothing arrives:
    [response] stays empty, the wait takes its ten sleeps, and the caller is
    sent the failure response. *)
Theorem bare_sigil_is_no_reply (fuel : nat) (e : Env) (dump : string) :
  (11 <= fuel)%nat ->
  DumpRequest e = inl dump ->
  subscribe_Error e = None ->
  Forall bare_or_ignored (on_subscribe e) ->
  (forall k, Forall bare_or_ignored (on_sleep e k)) ->
  Forall bare_or_ignored (on_unsubscribe e) ->
  callback "" sigil = "" /\
  deliver "" (arrived e) = "" /\
  polls e = 10%nat /\
  HTTPHandler fuel e = HTTPHandler fuel (silent e) /\
  exists tr,
    HTTPHandler fuel e = Some tr /\
    slept tr = (10 * Second)%Z /\
    (w_Hijacker e = HijackOk ->
     filter to_caller tr = [ Hijack; Fprintf_bufrw timeout_document; Flush; Close ]).
Proof.
  intros Hfuel Hdump Hsub Hpre Hsleep Hpost.
  assert (Hslot : deliver "" (arrived e) = "").
  { apply deliver_bare. unfold arrived.
    apply Forall_app. split; [exact Hpre|].
    apply Forall_app. split; [now apply during_sleeps_bare | exact Hpost]. }
  assert (Hpolls : polls e = 10%nat).
  { destruct (run_wait_polls fuel e Hfuel) as (_ & Hle & _ & Hlast).
    destruct (Nat.eq_dec (polls e) 10) as [|Hne]; [assumption|].
    exfalso. apply Hlast; [lia|].
    rewrite observed_during, <- deliver_app. apply deliver_bare.
    apply Forall_app. split; [exact Hpre | now apply during_sleeps_bare]. }
  split; [reflexivity|]. split; [exact Hslot|]. split; [exact Hpolls|].
  split.
  - unfold HTTPHandler. cbn [silent r_Host DumpRequest subscribe_Error on_subscribe
                             on_sleep on_unsubscribe unsubscribe_Error w_Hijacker].
    rewrite (deliver_bare _ Hpre). cbn [deliver fold_left].
    rewrite (wait_loop_bare _ fuel Hsleep).
    destruct (client_identifier (r_Host e)); [|reflexivity].
    rewrite Hdump, Hsub.
    destruct (wait_loop fuel (fun _ => []) "" 0) as [[[response count] waiting]|] eqn:Hrun;
      [|reflexivity].
    assert (Hresp : response = "").
    { destruct (wait_loop_spec (fun _ => []) fuel "" 0) as (n & Hrun' & _);
        [simpl; lia|].
      rewrite Hrun in Hrun'. injection Hrun' as -> _ _.
      rewrite observed_during. apply deliver_bare.
      apply during_sleeps_bare. intros _. constructor. }
    subst response. now rewrite (deliver_bare _ Hpost).
  - destruct (HTTPHandler_caller_view fuel e dump Hfuel Hdump Hsub)
      as (tr & Hrun & Hslept & Hview).
    exists tr. split; [exact Hrun|]. split.
    + rewrite Hslept, Hpolls. reflexivity.
    + intros Hhj. now rewrite Hview, Hhj, Hslot.
Qed.

Lemma bare_sigil_is_no_reply_witness :
  ((11 <= 11)%nat /\
   DumpRequest bare_reply = inl "GET / HTTP/1.1" /\
   subscribe_Error bare_reply = None /\
   on_sleep bare_reply 2 = [sigil] /\
   w_Hijacker bare_reply = HijackOk) /\
  polls bare_reply = 10%nat /\
  exists tr,
    HTTPHandler 11 bare_reply = Some tr /\
    slept tr = (10 * Second)%Z /\
    filter to_caller tr = [ Hijack; Fprintf_bufrw timeout_document; Flush; Close ].
Proof.
  split; [repeat split; lia|].
  assert (Hsleep : forall k, Forall bare_or_ignored (on_sleep bare_reply k)).
  { intros k. cbn [bare_reply sample on_sleep].
    destruct (k =? 2)%Z; repeat constructor. }
  destruct (bare_sigil_is_no_reply 11 bare_reply "GET / HTTP/1.1"
              (le_n 11) eq_refl eq_refl (Forall_nil _) Hsleep (Forall_nil _))
    as (_ & _ & Hpolls & _ & tr & Hrun & Hslept & Hview).
  split; [exact Hpolls|].
  exists tr. repeat split; [exact Hrun | exact Hslept | exact (Hview eq_refl)].
Defined.

(** * Further properties of the handler and of the start-up *)

(** ** Every run has one of three shapes *)

Lemma wait_loop_count (arrive : Z -> list string) (fuel : nat) :
  forall response count response' count' evs,
    wait_loop fuel arrive response count = Some (response', count', evs) ->
    (count <= count')%Z.
Proof.
  induction fuel as [|fuel IH]; intros response count response' count' evs Hrun;
    [discriminate|].
  cbn [wait_loop] in Hrun.
  destruct ((String.length response =? 0)%nat && (count <? 10)%Z).
  - destruct (wait_loop fuel arrive (deliver response (arrive count)) (count + 1))
      as [[[r c] inner]|] eqn:Hinner; [|discriminate].
    apply IH in Hinner. injection Hrun as _ <- _. lia.
  - injection Hrun as _ <- _. lia.
Qed.

(** A wait that finishes on some fuel is the wait of [run_wait_polls]. *)
Lemma run_wait_any_fuel (fuel : nat) (e : Env) result :
  run_wait fuel e = Some result ->
  result = (at_check e (polls e), Z.of_nat (polls e), wait_events (polls e)).
Proof.
  intros Hrun.
  destruct (run_wait_polls (Nat.max fuel 11) e) as (Hbig & _); [lia|].
  unfold run_wait in *.
  apply (wait_loop_more_fuel _ fuel (Nat.max fuel 11)) in Hrun; [|lia].
  unfold at_check. congruence.
Qed.

(** From [Some a = Some b] to [b = a], without touching [a] and [b]. *)
Ltac from_some H :=
  symmetry;
  exact (f_equal (fun o => match o with Some x => x | None => [] end) H).

Lemma HTTPHandler_shape (fuel : nat) (e : Env) (tr : list Event) :
  HTTPHandler fuel e = Some tr ->
  exists host, client_identifier (r_Host e) = Some host /\ tr = shape e host.
Proof.
  destruct (client_identifier_total (r_Host e)) as [host Hhost].
  intros Hrun. exists host. split; [exact Hhost|].
  unfold HTTPHandler in Hrun. rewrite Hhost in Hrun. unfold shape.
  destruct (DumpRequest e) as [dump | err]; [|from_some Hrun].
  destruct (subscribe_Error e) as [err|]; [from_some Hrun|].
  destruct (wait_loop fuel (on_sleep e) (deliver "" (on_subscribe e)) 0)
    as [result|] eqn:Hwait; [|discriminate].
  rewrite (run_wait_any_fuel fuel e result Hwait) in Hrun.
  rewrite deliver_arrived. unfold at_check in Hrun.
  from_some Hrun.
Qed.

Lemma HTTPHandler_runs (fuel : nat) (e : Env) :
  (11 <= fuel)%nat -> exists tr, HTTPHandler fuel e = Some tr.
Proof.
  intros Hfuel.
  destruct (client_identifier_total (r_Host e)) as [host Hhost].
  unfold HTTPHandler. rewrite Hhost.
  destruct (DumpRequest e) as [dump | err]; [|eexists; reflexivity].
  destruct (subscribe_Error e) as [err|]; [eexists; reflexivity|].
  destruct (run_wait_polls fuel e Hfuel) as (Hrun & _).
  unfold run_wait in Hrun. rewrite Hrun. eexists; reflexivity.
Qed.

Lemma slept_app (xs ys : list Event) : slept (xs ++ ys) = (slept xs + slept ys)%Z.
Proof.
  induction xs as [|[] xs IH]; cbn [app slept]; rewrite ?IH; lia.
Qed.

Lemma polls_le (e : Env) : (polls e <= 10)%nat.
Proof. now destruct (run_wait_polls 11 e (le_n 11)) as (_ & H & _). Qed.

Lemma slept_shape (e : Env) (host : string) :
  slept (shape e host)
  = match DumpRequest e, subscribe_Error e with
    | inl _, None => (Z.of_nat (polls e) * Second)%Z
    | _, _ => 0%Z
    end.
Proof.
  unfold shape.
  destruct (DumpRequest e) as [dump | err]; [|reflexivity].
  destruct (subscribe_Error e) as [err|]; [reflexivity|].
  cbn [app slept]. rewrite slept_app, slept_wait_events. cbn [app slept].
  rewrite slept_app.
  assert (slept (unsubscribe_warning host (unsubscribe_Error e)) = 0%Z) as ->
    by (now destruct (unsubscribe_Error e)).
  assert (slept (relay (w_Hijacker e) (final_response (deliver "" (arrived e)))) = 0%Z) as ->
    by (now destruct (w_Hijacker e)).
  lia.
Qed.

Lemma filter_shape (keep : Event -> bool) (e : Env) (host : string) :
  (forall s, keep (Printf s) = false) ->
  (forall d, keep (Sleep d) = false) ->
  filter keep (shape e host)
  = match DumpRequest e with
    | inr err =>
      filter keep
        [ Fprintf_w ("Error converting the incoming request to plain-text: " ++ err ++ nl) ]
    | inl dump =>
      match subscribe_Error e with
      | Some err =>
        filter keep
          [ Publish (topic host) 0 false dump; Subscribe (topic host) 0;
            Fprintf_w ("Error subscribing to clients/" ++ host ++ " - " ++ err ++ nl) ]
      | None =>
        (filter keep [ Publish (topic host) 0 false dump; Subscribe (topic host) 0;
                       Unsubscribe (topic host) ]
         ++ filter keep (relay (w_Hijacker e) (final_response (deliver "" (arrived e)))))%list
      end
    end.
Proof.
  intros Hp Hs. unfold shape.
  destruct (DumpRequest e) as [dump | err].
  2:{ cbn [filter]. now rewrite !Hp. }
  destruct (subscribe_Error e) as [err|].
  1:{ cbn [filter]. now rewrite !Hp. }
  rewrite !filter_app, (filter_wait_events keep), (filter_unsubscribe_warning keep)
    by auto.
  cbn [filter app]. rewrite Hp.
  destruct (keep (Publish (topic host) 0 false dump)),
           (keep (Subscribe (topic host) 0)),
           (keep (Unsubscribe (topic host))); reflexivity.
Qed.

Lemma final_response_not_empty (response : string) : final_response response <> "".
Proof.
  unfold final_response.
  destruct (String.length response =? 0)%nat eqn:Hlen; [discriminate|].
  intros ->. discriminate.
Qed.

Lemma timeout_document_response (response : string) :
  final_response response = timeout_document \/ final_response response = response.
Proof.
  unfold final_response. destruct (String.length response =? 0)%nat; auto.
Qed.

(** ** Every call returns *)

(** X1: with fuel for the eleven evaluations of the loop condition every
    call returns, and more fuel does not change its events; no run panics,
    and no run sleeps more than ten seconds in all. *)
Theorem handler_returns (fuel : nat) (e : Env) :
  (11 <= fuel)%nat ->
  exists tr,
    HTTPHandler fuel e = Some tr /\
    HTTPHandler 11 e = Some tr /\
    filter (fun ev => match ev with Panic => true | _ => false end) tr = [] /\
    (0 <= slept tr <= 10 * Second)%Z.
Proof.
  intros Hfuel.
  destruct (HTTPHandler_runs fuel e Hfuel) as [tr Hrun].
  destruct (HTTPHandler_runs 11 e (le_n 11)) as [tr' Hrun'].
  destruct (HTTPHandler_shape _ _ _ Hrun) as (host & Hhost & ->).
  destruct (HTTPHandler_shape _ _ _ Hrun') as (host' & Hhost' & ->).
  assert (host' = host) as -> by congruence.
  exists (shape e host). repeat split; try assumption.
  - rewrite filter_shape by reflexivity.
    destruct (DumpRequest e); [|reflexivity].
    destruct (subscribe_Error e); [reflexivity|].
    now destruct (w_Hijacker e).
  - rewrite slept_shape.
    destruct (DumpRequest e), (subscribe_Error e); unfold Second; lia.
  - rewrite slept_shape. pose proof (polls_le e).
    destruct (DumpRequest e), (subscribe_Error e); unfold Second; lia.
Qed.

Lemma handler_returns_witness :
  (11 <= 40)%nat /\
  exists tr, HTTPHandler 40 two_replies = Some tr /\ HTTPHandler 11 two_replies = Some tr.
Proof.
  assert (H : (11 <= 40)%nat) by lia.
  split; [exact H|].
  destruct (handler_returns 40 two_replies H) as (tr & Hrun & Hrun' & _).
  exists tr. split; assumption.
Defined.

(** ** The calls to the bus *)

(** X2: once the request is dumped, every run publishes the dump once,
    unaltered, at QoS 0 and not retained, before its one subscribe, both on
    the topic of the client; the one unsubscribe follows when the subscribe
    succeeded, and only then. *)
Theorem bus_calls_in_order (fuel : nat) (e : Env) (dump : string) (tr : list Event) :
  HTTPHandler fuel e = Some tr ->
  DumpRequest e = inl dump ->
  exists host,
    client_identifier (r_Host e) = Some host /\
    filter on_bus tr
    = Publish (topic host) 0 false dump
      :: Subscribe (topic host) 0
      :: match subscribe_Error e with
         | None => [ Unsubscribe (topic host) ]
         | Some _ => []
         end.
Proof.
  intros Hrun Hdump.
  destruct (HTTPHandler_shape _ _ _ Hrun) as (host & Hhost & ->).
  exists host. split; [exact Hhost|].
  rewrite filter_shape by reflexivity. rewrite Hdump.
  destruct (subscribe_Error e); [reflexivity|].
  now destruct (w_Hijacker e).
Qed.

Lemma bus_calls_in_order_witness :
  (HTTPHandler 11 one_reply
   = Some [ Printf ("Sending request to remote name foo" ++ nl);
            Publish "clients/foo" 0 false "GET / HTTP/1.1";
            Subscribe "clients/foo" 0;
            Printf ("Awaiting a reply .." ++ nl); Sleep 1000000000;
            Printf ("Awaiting a reply .." ++ nl); Sleep 1000000000;
            Unsubscribe "clients/foo";
            Hijack;
            Fprintf_bufrw ("HTTP/1.1 200 OK" ++ String "013" nl ++ String "013" nl ++ "hi");
            Flush; Close ] /\
   DumpRequest one_reply = inl "GET / HTTP/1.1") /\
  exists host,
    client_identifier (r_Host one_reply) = Some host /\
    filter on_bus
      [ Printf ("Sending request to remote name foo" ++ nl);
        Publish "clients/foo" 0 false "GET / HTTP/1.1";
        Subscribe "clients/foo" 0;
        Printf ("Awaiting a reply .." ++ nl); Sleep 1000000000;
        Printf ("Awaiting a reply .." ++ nl); Sleep 1000000000;
        Unsubscribe "clients/foo";
        Hijack;
        Fprintf_bufrw ("HTTP/1.1 200 OK" ++ String "013" nl ++ String "013" nl ++ "hi");
        Flush; Close ]
    = [ Publish (topic host) 0 false "GET / HTTP/1.1";
        Subscribe (topic host) 0; Unsubscribe (topic host) ].
Proof.
  split; [split; reflexivity|].
  exact (bus_calls_in_order 11 one_reply "GET / HTTP/1.1" _ eq_refl eq_refl).
Defined.

(** ** A failed subscribe *)

(** X3: when the subscribe fails, the request has been published all the
    same; the handler reports the error through [w] and returns, on any
    fuel: it does not sleep, does not unsubscribe and does not take over
    the connection, whatever arrives and whatever the writer supports. *)
Theorem subscribe_failure_reported (fuel : nat) (e : Env) (dump err : string) :
  DumpRequest e = inl dump ->
  subscribe_Error e = Some err ->
  exists host,
    client_identifier (r_Host e) = Some host /\
    HTTPHandler fuel e
    = Some [ Printf ("Sending request to remote name " ++ host ++ nl);
             Publish (topic host) 0 false dump;
             Subscribe (topic host) 0;
             Printf ("Error subscribing to clients/" ++ host ++ " - " ++ err ++ nl);
             Fprintf_w ("Error subscribing to clients/" ++ host ++ " - " ++ err ++ nl) ].
Proof.
  intros Hdump Hsub.
  destruct (client_identifier_total (r_Host e)) as [host Hhost].
  exists host. split; [exact Hhost|].
  unfold HTTPHandler. now rewrite Hhost, Hdump, Hsub.
Qed.

Lemma subscribe_failure_reported_witness :
  (DumpRequest (with_subscribe_Error two_replies (Some "timed out")) = inl "GET / HTTP/1.1" /\
   subscribe_Error (with_subscribe_Error two_replies (Some "timed out")) = Some "timed out") /\
  exists host,
    client_identifier "foo.tunnel.example.com" = Some host /\
    HTTPHandler 0 (with_subscribe_Error two_replies (Some "timed out"))
    = Some [ Printf ("Sending request to remote name " ++ host ++ nl);
             Publish (topic host) 0 false "GET / HTTP/1.1";
             Subscribe (topic host) 0;
             Printf ("Error subscribing to clients/" ++ host ++ " - timed out" ++ nl);
             Fprintf_w ("Error subscribing to clients/" ++ host ++ " - timed out" ++ nl) ].
Proof.
  split; [split; reflexivity|].
  exact (subscribe_failure_reported 0 (with_subscribe_Error two_replies (Some "timed out"))
           "GET / HTTP/1.1" "timed out" eq_refl eq_refl).
Defined.

(** ** A connection that cannot be taken over *)



(** ** One response for each call *)

(** X5: every run hands the caller exactly one response: an error text
    through [w], an [http.Error], or the bytes written on the connection
    taken over; never two of them and never none. *)
Theorem one_response_per_call (fuel : nat) (e : Env) (tr : list Event) :
  HTTPHandler fuel e = Some tr ->
  length (filter is_response tr) = 1%nat.
Proof.
  intros Hrun.
  destruct (HTTPHandler_shape _ _ _ Hrun) as (host & _ & ->).
  rewrite filter_shape by reflexivity.
  destruct (DumpRequest e); [|reflexivity].
  destruct (subscribe_Error e); [reflexivity|].
  now destruct (w_Hijacker e).
Qed.

Lemma one_response_per_call_witness :
  HTTPHandler 0 unreadable
  = Some [ Printf ("Sending request to remote name foo" ++ nl);
           Fprintf_w ("Error converting the incoming request to plain-text: unexpected EOF" ++ nl);
           Printf ("Error converting the incoming request to plain-text: unexpected EOF" ++ nl) ] /\
  length (filter is_response
            [ Printf ("Sending request to remote name foo" ++ nl);
              Fprintf_w ("Error converting the incoming request to plain-text: unexpected EOF" ++ nl);
              Printf ("Error converting the incoming request to plain-text: unexpected EOF" ++ nl) ])
  = 1%nat.
Proof.
  split; [reflexivity|].
  exact (one_response_per_call 0 unreadable _ eq_refl).
Defined.

(** X6: what a run writes on the connection taken over is never empty: it
    is the failure response, or else the value the callback left in
    [response], and that only when it is not empty. *)
Theorem raw_write_never_empty (fuel : nat) (e : Env) (tr : list Event) (s : string) :
  HTTPHandler fuel e = Some tr ->
  In (Fprintf_bufrw s) tr ->
  s <> "" /\
  (s = timeout_document \/ s = deliver "" (arrived e)) /\
  w_Hijacker e = HijackOk.
Proof.
  intros Hrun Hin.
  destruct (HTTPHandler_shape _ _ _ Hrun) as (host & _ & ->).
  assert (Hkeep : In (Fprintf_bufrw s) (filter on_connection (shape e host)))
    by (apply filter_In; split; [exact Hin | reflexivity]).
  rewrite filter_shape in Hkeep by reflexivity.
  destruct (DumpRequest e); [|contradiction].
  destruct (subscribe_Error e); [contradiction|].
  destruct (w_Hijacker e); try contradiction.
  cbn [relay filter on_connection bus_topic app In] in Hkeep.
  destruct Hkeep as [[= <-] | [Hkeep | [Hkeep | []]]]; try discriminate.
  split; [apply final_response_not_empty|].
  split; [apply timeout_document_response | reflexivity].
Qed.

Lemma raw_write_never_empty_witness :
  (HTTPHandler 11 bare_reply
   = Some ([ Printf ("Sending request to remote name foo" ++ nl);
             Publish "clients/foo" 0 false "GET / HTTP/1.1";
             Subscribe "clients/foo" 0 ]
           ++ wait_events 10
           ++ [ Unsubscribe "clients/foo";
                Hijack; Fprintf_bufrw timeout_document; Flush; Close ])%list /\
   In (Fprintf_bufrw timeout_document)
      ([ Printf ("Sending request to remote name foo" ++ nl);
         Publish "clients/foo" 0 false "GET / HTTP/1.1";
         Subscribe "clients/foo" 0 ]
       ++ wait_events 10
       ++ [ Unsubscribe "clients/foo";
            Hijack; Fprintf_bufrw timeout_document; Flush; Close ])%list) /\
  timeout_document <> "".
Proof.
  assert (Hin : In (Fprintf_bufrw timeout_document)
                  ([ Printf ("Sending request to remote name foo" ++ nl);
                     Publish "clients/foo" 0 false "GET / HTTP/1.1";
                     Subscribe "clients/foo" 0 ]
                   ++ wait_events 10
                   ++ [ Unsubscribe "clients/foo";
                        Hijack; Fprintf_bufrw timeout_document; Flush; Close ])%list).
  { apply in_or_app. right. apply in_or_app. right.
    right. right. left. reflexivity. }
  split; [split; [reflexivity | exact Hin]|].
  exact (proj1 (raw_write_never_empty 11 bare_reply _ timeout_document eq_refl Hin)).
Defined.

(** ** What of the host name matters *)



(** ** Which arrivals are seen *)

Lemma wait_loop_agree (arrive arrive' : Z -> list string) (fuel : nat) :
  forall response count response' count' evs,
    wait_loop fuel arrive response count = Some (response', count', evs) ->
    (forall k, (count <= k < count')%Z -> arrive' k = arrive k) ->
    wait_loop fuel arrive' response count = Some (response', count', evs).
Proof.
  induction fuel as [|fuel IH]; intros response count response' count' evs Hrun Hsame;
    [discriminate|].
  cbn [wait_loop] in *.
  destruct ((String.length response =? 0)%nat && (count <? 10)%Z); [|exact Hrun].
  destruct (wait_loop fuel arrive (deliver response (arrive count)) (count + 1))
    as [[[r c] inner]|] eqn:Hinner; [|discriminate].
  pose proof (wait_loop_count _ _ _ _ _ _ _ Hinner) as Hcount.
  assert (c = count') as -> by (injection Hrun; auto).
  rewrite (Hsame count) by lia.
  rewrite (IH _ _ _ _ _ Hinner); [exact Hrun|].
  intros k Hk. apply Hsame. lia.
Qed.

(** X8: a run sees the messages of the sleeps it makes and no others:
    changing what would arrive during later sleeps, or after the tenth,
    changes nothing. *)
Theorem later_arrivals_unseen (fuel : nat) (e : Env) (arrive : Z -> list string) :
  (11 <= fuel)%nat ->
  (forall k, (0 <= k < Z.of_nat (polls e))%Z -> arrive k = on_sleep e k) ->
  HTTPHandler fuel (with_on_sleep e arrive) = HTTPHandler fuel e.
Proof.
  intros Hfuel Hsame.
  destruct (run_wait_polls fuel e Hfuel) as (Hrun & _).
  unfold run_wait in Hrun.
  pose proof (wait_loop_agree _ arrive _ _ _ _ _ _ Hrun Hsame) as Hrun'.
  unfold HTTPHandler. cbn [with_on_sleep r_Host DumpRequest subscribe_Error on_subscribe
                           on_sleep on_unsubscribe unsubscribe_Error w_Hijacker].
  now rewrite Hrun, Hrun'.
Qed.

Lemma later_arrivals_unseen_witness :
  ((11 <= 11)%nat /\ polls one_reply = 2%nat) /\
  HTTPHandler 11 (with_on_sleep one_reply
                    (fun k => if (k <? 2)%Z then on_sleep one_reply k else ["X-late"]))
  = HTTPHandler 11 one_reply.
Proof.
  split; [split; [lia | reflexivity]|].
  apply (later_arrivals_unseen 11 one_reply); [lia|].
  intros k Hk. change (polls one_reply) with 2%nat in Hk.
  destruct (k <? 2)%Z eqn:Hlt; [reflexivity|].
  apply Z.ltb_ge in Hlt. lia.
Defined.

(** X9: the number of sleeps of a call is the first [n], up to ten, at whose
    evaluation of the loop condition [response] is not empty: a reply is
    picked up at the first evaluation that follows its arrival. *)
Theorem polls_is_first_reply (e : Env) (n : nat) :
  (n <= 10)%nat ->
  (forall j, (j < n)%nat -> at_check e j = "") ->
  ((n < 10)%nat -> at_check e n <> "") ->
  polls e = n.
Proof.
  intros Hle Hempty Hlast.
  destruct (run_wait_polls 11 e (le_n 11)) as (_ & Hle' & Hempty' & Hlast').
  fold (at_check e) in Hempty', Hlast'.
  destruct (Nat.lt_trichotomy (polls e) n) as [Hlt | [Heq | Hgt]].
  - exfalso. apply Hlast'; [lia|]. now apply Hempty.
  - exact Heq.
  - exfalso. apply Hlast; [lia|]. now apply Hempty'.
Qed.

Lemma polls_is_first_reply_witness :
  ((2 <= 10)%nat /\ at_check one_reply 0 = "" /\ at_check one_reply 1 = "" /\
   at_check one_reply 2 <> "") /\
  polls one_reply = 2%nat.
Proof.
  assert (Hlast : at_check one_reply 2 <> "") by discriminate.
  split; [repeat split; [lia | exact Hlast]|].
  apply (polls_is_first_reply one_reply 2).
  - lia.
  - intros [|[|j]] Hj; [reflexivity | reflexivity | lia].
  - intros _. exact Hlast.
Defined.

(** X10: when a reply is recorded before the wait begins, during the
    subscribe, the loop body is never run: the call does not sleep, and the
    reply is what [response] holds at the first evaluation. *)
Theorem reply_during_subscribe_no_sleep (fuel : nat) (e : Env) (dump : string) :
  (11 <= fuel)%nat ->
  DumpRequest e = inl dump ->
  subscribe_Error e = None ->
  deliver "" (on_subscribe e) <> "" ->
  polls e = 0%nat /\
  exists tr,
    HTTPHandler fuel e = Some tr /\
    slept tr = 0%Z /\
    arrived e = (on_subscribe e ++ on_unsubscribe e)%list.
Proof.
  intros Hfuel Hdump Hsub Hreply.
  assert (Hpolls : polls e = 0%nat).
  { destruct (run_wait_polls 11 e (le_n 11)) as (_ & _ & Hempty & _).
    destruct (polls e) as [|n]; [reflexivity|].
    exfalso. apply Hreply. apply (Hempty 0%nat). lia. }
  split; [exact Hpolls|].
  destruct (HTTPHandler_runs fuel e Hfuel) as [tr Hrun].
  destruct (HTTPHandler_shape _ _ _ Hrun) as (host & _ & ->).
  exists (shape e host). split; [exact Hrun|]. split.
  - now rewrite slept_shape, Hdump, Hsub, Hpolls.
  - unfold arrived. now rewrite Hpolls.
Qed.

Lemma reply_during_subscribe_no_sleep_witness :
  ((11 <= 11)%nat /\
   deliver "" (on_subscribe
                 {| r_Host := "bar"; DumpRequest := inl "GET /";
                    publish_Error := None; subscribe_Error := None;
                    unsubscribe_Error := None;
                    on_subscribe := ["X-early"]; on_sleep := fun _ => [];
                    on_unsubscribe := []; w_Hijacker := HijackOk |}) <> "") /\
  polls {| r_Host := "bar"; DumpRequest := inl "GET /";
           publish_Error := None; subscribe_Error := None;
           unsubscribe_Error := None;
           on_subscribe := ["X-early"]; on_sleep := fun _ => [];
           on_unsubscribe := []; w_Hijacker := HijackOk |} = 0%nat.
Proof.
  assert (H : "early" <> "") by discriminate.
  split; [split; [lia | exact H]|].
  exact (proj1 (reply_during_subscribe_no_sleep 11
                  {| r_Host := "bar"; DumpRequest := inl "GET /";
                     publish_Error := None; subscribe_Error := None;
                     unsubscribe_Error := None;
                     on_subscribe := ["X-early"]; on_sleep := fun _ => [];
                     on_unsubscribe := []; w_Hijacker := HijackOk |}
                  "GET /" (le_n 11) eq_refl eq_refl H)).
Defined.

(** ** Starting the server *)

(** X11: the exit status of [Execute] tells a failed connect and nothing
    else.  When the connect fails nothing is registered and nothing
    listens; when it succeeds the handler is registered once for every path
    and the server listens once on [bindHost:bindPort], and the status is 0
    even if listening fails. *)
Theorem exit_status_of_connect (p : serveCmd) (connect_Error listen_Error : option string) :
  snd (Execute p connect_Error listen_Error)
  = match connect_Error with Some _ => 1%Z | None => 0%Z end /\
  hd_error (fst (Execute p connect_Error listen_Error))
  = Some (Connect "tcp://localhost:1883") /\
  filter is_handle (fst (Execute p connect_Error listen_Error))
  = match connect_Error with Some _ => [] | None => [ HandleFunc "/" ] end /\
  filter is_listen (fst (Execute p connect_Error listen_Error))
  = match connect_Error with
    | Some _ => []
    | None =>
      [ ListenAndServe (bindHost p ++ ":" ++ decimal (bindPort p))
          300000000000 300000000000 ]
    end.
Proof.
  unfold Execute. destruct connect_Error, listen_Error; repeat split.
Qed.

(** X12: the wait of a call stays far inside the time the server grants a
    request: whatever the server was started with, no run of the handler
    sleeps more than ten seconds, against read and write timeouts of 300. *)
Theorem wait_within_server_timeouts (p : serveCmd) (listen_Error : option string)
    (addr : string) (ReadTimeout WriteTimeout : Z)
    (fuel : nat) (e : Env) (tr : list Event) :
  In (ListenAndServe addr ReadTimeout WriteTimeout) (fst (Execute p None listen_Error)) ->
  HTTPHandler fuel e = Some tr ->
  (slept tr <= 10 * Second)%Z /\
  (10 * Second < ReadTimeout)%Z /\
  (10 * Second < WriteTimeout)%Z.
Proof.
  intros Hin Hrun.
  destruct (HTTPHandler_shape _ _ _ Hrun) as (host & _ & ->).
  split.
  - rewrite slept_shape. pose proof (polls_le e).
    destruct (DumpRequest e), (subscribe_Error e); unfold Second; lia.
  - unfold Execute in Hin.
    assert (Hserve : (ReadTimeout = 300 * Second /\ WriteTimeout = 300 * Second)%Z).
    { destruct listen_Error; cbn [fst In] in Hin;
        repeat (destruct Hin as [Hin | Hin]; try discriminate; try contradiction);
        injection Hin as _ <- <-; split; reflexivity. }
    destruct Hserve as [-> ->]. unfold Second. lia.
Qed.

Lemma wait_within_server_timeouts_witness :
  (In (ListenAndServe "127.0.0.1:8080" 300000000000 300000000000)
      (fst (Execute default_flags None (Some "address already in use"))) /\
   HTTPHandler 11 bare_reply
   = Some ([ Printf ("Sending request to remote name foo" ++ nl);
             Publish "clients/foo" 0 false "GET / HTTP/1.1";
             Subscribe "clients/foo" 0 ]
           ++ wait_events 10
           ++ [ Unsubscribe "clients/foo";
                Hijack; Fprintf_bufrw timeout_document; Flush; Close ])%list) /\
  (slept ([ Printf ("Sending request to remote name foo" ++ nl);
            Publish "clients/foo" 0 false "GET / HTTP/1.1";
            Subscribe "clients/foo" 0 ]
          ++ wait_events 10
          ++ [ Unsubscribe "clients/foo";
               Hijack; Fprintf_bufrw timeout_document; Flush; Close ])%list
   <= 10 * Second)%Z.
Proof.
  assert (Hin : In (ListenAndServe "127.0.0.1:8080" 300000000000 300000000000)
                  (fst (Execute default_flags None (Some "address already in use"))))
    by (right; right; right; left; reflexivity).
  split; [split; [exact Hin | reflexivity]|].
  exact (proj1 (wait_within_server_timeouts default_flags _ _ _ _ 11 bare_reply _
                  Hin eq_refl)).
Defined.

(** ** The library calls *)

Lemma no_dot_app (a b : string) : no_dot a -> no_dot b -> no_dot (a ++ b).
Proof.
  induction a as [|c a IH]; intros Ha Hb; [exact Hb|].
  apply no_dot_String in Ha. destruct Ha as [Hc Ha].
  change (no_dot (String c (a ++ b))). apply no_dot_String. auto.
Qed.

Lemma genSplit_dot (s : string) :
  forall cur,
    no_dot cur ->
    String.concat "." (strings.genSplit "." 0 cur s) = cur ++ s /\
    Forall no_dot (strings.genSplit "." 0 cur s) /\
    length (strings.genSplit "." 0 cur s)
    = S (count_occ ascii_dec (list_ascii_of_string s) "."%char).
Proof.
  induction s as [|c s IH]; intros cur Hcur.
  - cbn. rewrite append_empty_r. repeat split. now constructor.
  - cbn [strings.genSplit strings.HasPrefix list_ascii_of_string count_occ].
    destruct (Ascii.eqb_spec c ".") as [-> | Hc]; cbn [andb String.length Nat.sub].
    + destruct (IH "" no_dot_empty) as (Hcat & Hall & Hlen).
      destruct (ascii_dec "." "."); [|contradiction].
      split; [|split; [now constructor | now rewrite <- Hlen]].
      cbn [String.concat].
      destruct (strings.genSplit "." 0 "" s) as [|piece pieces] eqn:Hsplit;
        [discriminate|].
      now rewrite Hcat.
    + destruct (IH (cur ++ String c "")) as (Hcat & Hall & Hlen).
      { apply no_dot_app; [exact Hcur|]. apply no_dot_String. split; [exact Hc|].
        apply no_dot_empty. }
      destruct (ascii_dec c "."); [contradiction|].
      split; [|split; assumption].
      now rewrite Hcat, append_assoc.
Qed.

(** X13: [Split] on ["."] loses nothing and cuts at every ['.']: joining
    the pieces with ["."] gives the string back, no piece holds a ['.'],
    and there is one piece more than there are ['.'] in the string. *)
Theorem Split_dot_pieces (s : string) :
  String.concat "." (strings.Split s ".") = s /\
  Forall no_dot (strings.Split s ".") /\
  length (strings.Split s ".")
  = S (count_occ ascii_dec (list_ascii_of_string s) "."%char).
Proof. exact (genSplit_dot s "" no_dot_empty). Qed.

(** X14: [Contains] finds exactly the strings that hold [substr]
    somewhere. *)
Theorem Contains_iff_occurs (s substr : string) :
  strings.Contains s substr = true <-> exists a b, s = a ++ substr ++ b.
Proof.
  split.
  - induction s as [|c s IH]; cbn [strings.Contains]; intros H.
    + rewrite orb_false_r in H. destruct (HasPrefix_inv _ _ H) as [b Hb].
      now exists "", b.
    + apply orb_true_iff in H. destruct H as [H | H].
      * destruct (HasPrefix_inv _ _ H) as [b Hb]. now exists "", b.
      * destruct (IH H) as (a & b & ->). now exists (String c a), b.
  - intros (a & b & ->). induction a as [|c a IH].
    + change ("" ++ substr ++ b) with (substr ++ b).
      assert (H : strings.HasPrefix (substr ++ b) substr = true) by apply HasPrefix_app.
      destruct (substr ++ b); cbn [strings.Contains]; now rewrite H.
    + change (String c a ++ substr ++ b) with (String c (a ++ substr ++ b)).
      cbn [strings.Contains]. rewrite IH. apply orb_true_r.
Qed.

Lemma append_length (a b : string) :
  String.length (a ++ b) = (String.length a + String.length b)%nat.
Proof. induction a as [|c a IH]; cbn; [reflexivity | now rewrite IH]. Qed.

(** X15: the guard of the callback makes its slice safe: a payload that
    passes [HasPrefix] has at least the two bytes that [tmp[2:]] skips, and
    is the prefix followed by exactly what the callback records. *)
Theorem guarded_slice_in_range (response tmp : string) :
  strings.HasPrefix tmp "X-" = true ->
  (2 <= String.length tmp)%nat /\
  tmp = "X-" ++ callback response tmp /\
  String.length (callback response tmp) = (String.length tmp - 2)%nat.
Proof.
  intros Hguard. unfold callback. rewrite Hguard.
  destruct (HasPrefix_inv _ _ Hguard) as [rest ->].
  change (slice_from 2 ("X-" ++ rest)) with rest.
  rewrite append_length. cbn [String.length]. repeat split; lia.
Qed.

Lemma guarded_slice_in_range_witness :
  strings.HasPrefix "X-ok" "X-" = true /\
  (2 <= String.length "X-ok")%nat /\
  "X-ok" = "X-" ++ callback "" "X-ok".
Proof.
  split; [reflexivity|].
  destruct (guarded_slice_in_range "" "X-ok" eq_refl) as (Hlen & Heq & _).
  split; assumption.
Defined.

(** ** Unmarked traffic on the topic *)

Lemma deliver_marked (msgs : list string) :
  forall response,
    deliver response (filter (fun m => strings.HasPrefix m "X-") msgs)
    = deliver response msgs.
Proof.
  induction msgs as [|m msgs IH]; intros response; [reflexivity|].
  cbn [filter]. rewrite (deliver_cons response m msgs).
  destruct (strings.HasPrefix m "X-") eqn:Hm.
  - rewrite deliver_cons. apply IH.
  - unfold callback at 1. rewrite Hm. apply IH.
Qed.

Lemma wait_loop_same_deliveries (arrive arrive' : Z -> list string) (fuel : nat) :
  (forall response k, deliver response (arrive' k) = deliver response (arrive k)) ->
  forall response count,
    wait_loop fuel arrive' response count = wait_loop fuel arrive response count.
Proof.
  intros Hsame. induction fuel as [|fuel IH]; intros response count; [reflexivity|].
  cbn [wait_loop]. now rewrite Hsame, IH.
Qed.

(** X16: messages without the prefix make no difference to a call, however
    many there are and whenever they come: the run is the run in which only
    the marked messages arrive.  The request of another call echoed on the
    topic is such a message, unless it starts with the prefix itself. *)
Theorem unmarked_traffic_ignored (fuel : nat) (e : Env) :
  HTTPHandler fuel (marked_only e) = HTTPHandler fuel e.
Proof.
  unfold HTTPHandler.
  cbn [marked_only r_Host DumpRequest subscribe_Error on_subscribe
       on_sleep on_unsubscribe unsubscribe_Error w_Hijacker].
  rewrite deliver_marked.
  rewrite (wait_loop_same_deliveries (on_sleep e)
             (fun k => filter (fun m => strings.HasPrefix m "X-") (on_sleep e k)))
    by (intros; apply deliver_marked).
  destruct (client_identifier (r_Host e)); [|reflexivity].
  destruct (DumpRequest e); [|reflexivity].
  destruct (subscribe_Error e); [reflexivity|].
  destruct (wait_loop fuel (on_sleep e) (deliver "" (on_subscribe e)) 0)
    as [[[response count] waiting]|]; [|reflexivity].
  now rewrite deliver_marked.
Qed.
